(** * week4/solution/src/tui.cpp: a bordered, vertically stacked text UI

    A shallow embedding of the element tree of [tui.cpp] ([Text], [Heading],
    [Container]), of [dimensions()] and of [render()], and the properties of
    the layout that the specification states about them.

    Conventions of the embedding:
    - [size_t] is a 64-bit unsigned integer: a [Z] in [0, 2^64), with the
      wrap-around of [+] and [-] written out ([size_add], [size_sub]);
    - [std::string] is a [string] (a sequence of 8-bit characters), and
      [text.size()] is its length;
    - [std::cout] is the sequence of characters written so far; [render]
      passes it along explicitly;
    - a [unique_ptr<Element>] held in a [Container] is modelled by the
      element it owns;
    - the standard library is taken by its contract: [std::max] is the
      maximum, a range-based [for] visits the elements of a [vector] in
      order, and a [vector] that was moved from is empty. *)

From Stdlib Require Import ZArith List Lia Bool Permutation.
From Stdlib Require Import Ascii String.
Import ListNotations.

Local Open Scope Z_scope.
Local Open Scope string_scope.

(** ** [size_t] arithmetic *)

Module SizeT.

Definition modulus : Z := 2 ^ 64.

Definition wrap (z : Z) : Z := z mod modulus.

(** [a + b] and [a - b] on [size_t] operands. *)
Definition size_add (a b : Z) : Z := wrap (a + b).
Definition size_sub (a b : Z) : Z := wrap (a - b).

Definition in_range (z : Z) : Prop := 0 <= z < modulus.

End SizeT.
Import SizeT.

(** ** Characters and output stream *)

Definition LF : ascii := "010"%char.
Definition ESC : ascii := "027"%char.

(** ["\u001b[1m"] and ["\u001b[0m"] *)
Definition bold_on : string := String ESC "[1m".
Definition style_reset : string := String ESC "[0m".

(** [std::endl] writes a line break (and flushes, which is not visible in
    the characters written). *)
Definition endl : string := String LF "".

(** The characters written to [std::cout] so far. *)
Definition ostream : Type := string.

(** [cout << s] *)
Definition put (cout : ostream) (s : string) : ostream := cout ++ s.

Notation "cout << s" := (put cout s) (at level 50, left associativity).

(** [for (size_t i = 0; i < n; ++i) cout << s;] for a [size_t] value [n]. *)
Definition put_n (n : Z) (s : string) (cout : ostream) : ostream :=
  Nat.iter (Z.to_nat n) (fun cout => cout << s) cout.

(** ** The element tree *)

Record Dimensions : Type := { width : Z; height : Z }.

#[local] Unset Elimination Schemes.
Inductive Element : Type :=
| Text (text : string)
| Heading (text : string)
| Container (children : list Element).
#[local] Set Elimination Schemes.

(** Induction on the tree, with the property available for every child of
    a [Container]. *)
Section ElementInduction.
Variable P : Element -> Prop.
Hypothesis HText : forall text, P (Text text).
Hypothesis HHeading : forall text, P (Heading text).
Hypothesis HContainer :
  forall children, Forall P children -> P (Container children).

Fixpoint Element_ind (e : Element) : P e :=
  match e with
  | Text text => HText text
  | Heading text => HHeading text
  | Container children =>
      HContainer children
        ((fix all (l : list Element) : Forall P l :=
            match l with
            | [] => Forall_nil P
            | c :: l' => Forall_cons c (Element_ind c) (all l')
            end) children)
  end.
End ElementInduction.

(** [text.size()] *)
Definition size (text : string) : Z := Z.of_nat (String.length text).

(** One iteration of the loop of [Container::dimensions], on the pair
    [(max_width, sum_height)]. *)
Definition dimensions_step (dims : Dimensions) (acc : Z * Z) : Z * Z :=
  let '(max_width, sum_height) := acc in
  (Z.max max_width (width dims), size_add sum_height (height dims)).

Fixpoint dimensions (e : Element) : Dimensions :=
  match e with
  | Text text => {| width := size text; height := 1 |}
  | Heading text => {| width := size text; height := 1 |}
  | Container children =>
      let '(max_width, sum_height) :=
        fold_left (fun acc child => dimensions_step (dimensions child) acc)
                  children (0, 0) in
      {| width := size_add max_width 2; height := sum_height |}
  end.

(** The number of padding spaces of a row:
    [dims.width - 2 - child_dims.width], on [size_t]. *)
Definition padding (dims_width child_width : Z) : Z :=
  size_sub (size_sub dims_width 2) child_width.

(** The lambda [render_line] of [Container::render]. *)
Definition render_line (dims : Dimensions) (cout : ostream) : ostream :=
  let cout := cout << "+" in
  let cout := put_n (size_sub (width dims) 2) "-" cout in
  cout << "+" << endl.

Fixpoint render (e : Element) (cout : ostream) : ostream :=
  match e with
  | Text text => cout << text
  | Heading text => cout << bold_on << text << style_reset
  | Container children =>
      let dims := dimensions e in
      let cout := render_line dims cout in
      let cout :=
        fold_left
          (fun cout child =>
             let child_dims := dimensions child in
             let cout := cout << "|" in
             let cout := render child cout in
             let cout := put_n (padding (width dims) (width child_dims)) " " cout in
             cout << "|" << endl)
          children cout in
      render_line dims cout
  end.

(** The body of the loop of [Container::render], for one child. *)
Definition render_child (dims : Dimensions) (cout : ostream) (child : Element)
  : ostream :=
  let child_dims := dimensions child in
  let cout := cout << "|" in
  let cout := render child cout in
  let cout := put_n (padding (width dims) (width child_dims)) " " cout in
  cout << "|" << endl.

(** What [e->render()] writes on an empty stream. *)
Definition output (e : Element) : string := render e "".

(** [main]'s tree. *)
Definition main_children : list Element :=
  [Heading "Hello world"; Text "This is a long string of text"].
Definition main_container : Element := Container main_children.

(** A box that holds [main]'s box and a [Text]. *)
Definition nested_children : list Element :=
  [Container main_children; Text "ok"].

(** ** Trees that fit in memory

    [size_t] counts the bytes of the address space.  Every [Element] object
    holds at least a pointer to its table of virtual functions, and the
    characters of a [std::string] take one byte each, all at distinct
    addresses: a tree that exists at run time has a footprint below
    [2^64]. *)

Definition object_bytes : Z := 8.

Fixpoint footprint (e : Element) : Z :=
  match e with
  | Text text => object_bytes + size text
  | Heading text => object_bytes + size text
  | Container children =>
      fold_right (fun child acc => footprint child + acc) object_bytes children
  end.

Definition fits (e : Element) : Prop := footprint e < modulus.

(** ** Words of the specification *)

(** The maximum of a list of widths (0 for no width at all) and the sum of
    a list of heights. *)
Fixpoint max_of (l : list Z) : Z :=
  match l with
  | [] => 0
  | x :: l' => Z.max x (max_of l')
  end.

Fixpoint sum_of (l : list Z) : Z :=
  match l with
  | [] => 0
  | x :: l' => x + sum_of l'
  end.

Definition widths (l : list Element) : list Z :=
  map (fun c => width (dimensions c)) l.
Definition heights (l : list Element) : list Z :=
  map (fun c => height (dimensions c)) l.

Definition is_leaf (e : Element) : bool :=
  match e with
  | Text _ | Heading _ => true
  | Container _ => false
  end.

Definition content (e : Element) : string :=
  match e with
  | Text text | Heading text => text
  | Container _ => ""
  end.

(** [repeat_string n s] is [s] written [n] times. *)
Fixpoint repeat_string (n : nat) (s : string) : string :=
  match n with
  | O => ""
  | S n' => s ++ repeat_string n' s
  end.

(** The lines of a text: the segments that a line break ends, and the
    characters after the last line break when there are some. *)
Fixpoint lines (s : string) : list string :=
  match s with
  | "" => []
  | String c s' =>
      if Ascii.eqb c LF then "" :: lines s'
      else match lines s' with
           | [] => [String c ""]
           | l :: ls => String c l :: ls
           end
  end.

(** [has c s]: the character [c] occurs in [s]. *)
Fixpoint has (c : ascii) (s : string) : bool :=
  match s with
  | "" => false
  | String c' s' => Ascii.eqb c' c || has c s'
  end.

(** [starts p s]: the text [s] begins with the text [p]. *)
Fixpoint starts (p s : string) : bool :=
  match p, s with
  | "", _ => true
  | String _ _, "" => false
  | String a p', String b s' => Ascii.eqb a b && starts p' s'
  end.

(** The visible characters of a text: the text without the styling control
    sequences [bold_on] and [style_reset].  [skip] counts the characters of
    a control sequence still to be dropped. *)
Fixpoint strip_style (skip : nat) (s : string) : string :=
  match s with
  | "" => ""
  | String c s' =>
      match skip with
      | S k => strip_style k s'
      | O =>
          if starts bold_on s || starts style_reset s
          then strip_style 3 s'
          else String c (strip_style 0 s')
      end
  end.

Definition visible (s : string) : string := strip_style 0 s.

(** The number of visible characters of a line. *)
Definition visible_width (s : string) : Z := Z.of_nat (String.length (visible s)).

(** The texts of [render]: a border line, the row of a child, and the rows
    of the children one after the other. *)
Definition border_text (dims : Dimensions) : string :=
  "+" ++ repeat_string (Z.to_nat (size_sub (width dims) 2)) "-" ++ "+".

Definition row_text (dims : Dimensions) (child : Element) : string :=
  "|" ++ output child
      ++ repeat_string
           (Z.to_nat (padding (width dims) (width (dimensions child)))) " "
      ++ "|".

Fixpoint rows (dims : Dimensions) (children : list Element) : string :=
  match children with
  | [] => ""
  | child :: children' =>
      row_text dims child ++ endl ++ rows dims children'
  end.

(** A content row starts with [|] and ends with [|]. *)
Definition first_char (s : string) : option ascii :=
  match s with
  | "" => None
  | String c _ => Some c
  end.

Fixpoint last_char (s : string) : option ascii :=
  match s with
  | "" => None
  | String c s' =>
      match s' with
      | "" => Some c
      | String _ _ => last_char s'
      end
  end.

Definition is_char (c : ascii) (o : option ascii) : bool :=
  match o with
  | Some c' => Ascii.eqb c' c
  | None => false
  end.

Definition is_content_row (s : string) : bool :=
  is_char "|" (first_char s) && is_char "|" (last_char s).

(** A border row starts with [+], ends with [+], and holds only [-] in
    between. *)
Fixpoint dashes_then_plus (s : string) : bool :=
  match s with
  | "" => false
  | String c s' =>
      match s' with
      | "" => Ascii.eqb c "+"
      | String _ _ => Ascii.eqb c "-" && dashes_then_plus s'
      end
  end.

Definition is_border_row (s : string) : bool :=
  match s with
  | "" => false
  | String c s' => Ascii.eqb c "+" && dashes_then_plus s'
  end.

(** The lines of a box: a border row, content rows, a border row. *)
Definition framed (ls : list string) : bool :=
  match ls with
  | [] => false
  | top :: rest =>
      match rev rest with
      | [] => false
      | bottom :: middle =>
          is_border_row top && is_border_row bottom
          && forallb is_content_row middle
      end
  end.

(** A [Text] or a [Heading] whose content holds no line break. *)
Definition one_line_leaf (e : Element) : bool :=
  is_leaf e && negb (has LF (content e)).

(** A [Text] or a [Heading] whose content holds neither a line break nor
    an escape character. *)
Definition plain_leaf (e : Element) : bool :=
  one_line_leaf e && negb (has ESC (content e)).

(** The box of a [Container], as the specification words it: [height + 2]
    lines, each of [width] visible characters. *)
Definition box_lines (e : Element) : Prop :=
  Z.of_nat (List.length (lines (output e))) = height (dimensions e) + 2.

Definition box_columns (e : Element) : Prop :=
  Forall (fun l => visible_width l = width (dimensions e)) (lines (output e)).

(** ** Calls and construction

    [dimensions()] is not a [const] member function and [std::cout] is a
    global object: a call has the means to change the object it is called
    on, the children that the object owns, and the stream.
    [dimensions_call e cout] is the body of [dimensions()] run on the
    object [e] with the stream [cout]: the value returned, the object
    after the call, and the stream after the call. *)
Definition Called : Type := (Dimensions * Element * ostream)%type.

(** One iteration of the loop of [Container::dimensions]: the accumulators
    [(max_width, sum_height)], the children already visited, as the calls
    left them, and the stream. *)
Definition dimensions_call_step
    (call : Element -> ostream -> Called)
    (state : (Z * Z) * list Element * ostream) (child : Element)
  : (Z * Z) * list Element * ostream :=
  let '(acc, visited, cout) := state in
  let '(dims, child, cout) := call child cout in
  (dimensions_step dims acc, (visited ++ [child])%list, cout).

Fixpoint dimensions_call (e : Element) (cout : ostream) : Called :=
  match e with
  | Text text => ({| width := size text; height := 1 |}, Text text, cout)
  | Heading text => ({| width := size text; height := 1 |}, Heading text, cout)
  | Container children =>
      let '(acc, children, cout) :=
        fold_left (dimensions_call_step dimensions_call)
                  children ((0, 0), [], cout) in
      let '(max_width, sum_height) := acc in
      ({| width := size_add max_width 2; height := sum_height |},
       Container children, cout)
  end.

(** [vector(vector &&source)]: the new vector holds the elements, and the
    source is left empty.  The result is (new vector, source afterwards). *)
Definition vector_move {A : Type} (source : list A) : list A * list A :=
  (source, []).

(** [Container(vector<unique_ptr<Element>> &children)
      : children(move(children)) {}]:
    the object constructed and the caller's vector afterwards. *)
Definition Container_new (children : list Element) : Element * list Element :=
  let '(own, children) := vector_move children in
  (Container own, children).

(** [children.push_back(move(e))] *)
Definition push_back {A : Type} (v : list A) (e : A) : list A := v ++ [e].

(** The body of [main]: the vector [children] at the end, and the stream. *)
Definition main (cout : ostream) : list Element * ostream :=
  let text := Heading "Hello world" in
  let text2 := Text "This is a long string of text" in
  let children := [] in
  let children := push_back children text in
  let children := push_back children text2 in
  let '(container, children) := Container_new children in
  (children, render container cout).

(** ** Counting

    The number of line breaks of a text, and the numbers of leaves and of
    Containers of a tree. *)
Fixpoint count_LF (s : string) : Z :=
  match s with
  | "" => 0
  | String c s' => (if Ascii.eqb c LF then 1 else 0) + count_LF s'
  end.

Fixpoint leaves (e : Element) : Z :=
  match e with
  | Text _ | Heading _ => 1
  | Container children => sum_of (map leaves children)
  end.

Fixpoint containers (e : Element) : Z :=
  match e with
  | Text _ | Heading _ => 0
  | Container children => 1 + sum_of (map containers children)
  end.

(** No content of the tree holds a line break. *)
Fixpoint one_line_contents (e : Element) : bool :=
  match e with
  | Text text | Heading text => negb (has LF text)
  | Container children => forallb one_line_contents children
  end.

(** A text made of whole lines: empty, or ended by a line break. *)
Definition terminated (s : string) : Prop :=
  s = "" \/ last_char s = Some LF.

(** * Properties *)

(** Unfolds the list functions by one element, leaving the arithmetic
    alone. *)
Ltac step_lists :=
  unfold widths, heights in *;
  cbn [max_of sum_of map fold_right] in *.

(** ** Strings *)

Section Strings.

Lemma append_nil_r (s : string) : s ++ "" = s.
Proof. induction s as [|c s IH]; simpl; congruence. Qed.

Lemma append_assoc (a b c : string) : (a ++ b) ++ c = a ++ (b ++ c).
Proof. induction a as [|x a IH]; simpl; congruence. Qed.

Lemma length_append (a b : string) :
  String.length (a ++ b) = (String.length a + String.length b)%nat.
Proof. induction a as [|x a IH]; simpl; congruence. Qed.

Lemma length_repeat_char (n : nat) (c : ascii) :
  String.length (repeat_string n (String c "")) = n.
Proof. induction n as [|n IH]; simpl; congruence. Qed.

Lemma has_append (c : ascii) (a b : string) :
  has c (a ++ b) = has c a || has c b.
Proof.
  induction a as [|x a IH]; simpl; [reflexivity|].
  rewrite IH. apply orb_assoc.
Qed.

Lemma has_repeat_char (c d : ascii) (n : nat) :
  Ascii.eqb d c = false -> has c (repeat_string n (String d "")) = false.
Proof. intros H. induction n as [|n IH]; simpl; [reflexivity|]. now rewrite H. Qed.

Lemma put_n_spec (n : Z) (s : string) (cout : ostream) :
  put_n n s cout = cout ++ repeat_string (Z.to_nat n) s.
Proof.
  unfold put_n. generalize (Z.to_nat n) as k. intros k. revert cout.
  induction k as [|k IH]; intros cout.
  - simpl. now rewrite append_nil_r.
  - rewrite Nat.iter_succ_r. rewrite IH. unfold put. simpl.
    apply append_assoc.
Qed.

End Strings.

(** ** [size_t] arithmetic, lemmas *)

Section SizeTLemmas.

Lemma modulus_pos : 0 < modulus.
Proof. reflexivity. Qed.

Lemma wrap_range (z : Z) : in_range (wrap z).
Proof. unfold in_range, wrap. apply Z.mod_pos_bound, modulus_pos. Qed.

Lemma wrap_small (z : Z) : in_range z -> wrap z = z.
Proof. unfold in_range, wrap. intros H. now apply Z.mod_small. Qed.

Lemma wrap_idem (z : Z) : wrap (wrap z) = wrap z.
Proof. apply wrap_small, wrap_range. Qed.

Lemma wrap_le (z : Z) : 0 <= z -> wrap z <= z.
Proof. unfold wrap. intros H. apply Z.mod_le; [assumption | apply modulus_pos]. Qed.

Lemma wrap_add_l (a b : Z) : wrap (wrap a + b) = wrap (a + b).
Proof. unfold wrap. apply Zplus_mod_idemp_l. Qed.

Lemma wrap_sub_l (a b : Z) : wrap (wrap a - b) = wrap (a - b).
Proof. unfold wrap. apply Zminus_mod_idemp_l. Qed.

(** [dims.width - 2] undoes the [+ 2] of [dimensions], wrapped or not. *)
Lemma size_sub_add_2 (m : Z) : size_sub (size_add m 2) 2 = wrap m.
Proof.
  unfold size_sub, size_add. rewrite wrap_sub_l. f_equal. lia.
Qed.

End SizeTLemmas.

(** ** Measurement *)

Section Measure.

Lemma size_nonneg (s : string) : 0 <= size s.
Proof. unfold size. lia. Qed.

Lemma max_of_nonneg (l : list Z) : 0 <= max_of l.
Proof. induction l as [|x l IH]; step_lists; lia. Qed.

Lemma max_of_ge (l : list Z) (x : Z) : In x l -> x <= max_of l.
Proof.
  induction l as [|y l IH]; step_lists; cbn [In]; [tauto|].
  intros [->|H]; [lia|]. specialize (IH H). lia.
Qed.

Lemma max_of_le_sum (l : list Z) :
  Forall (fun x => 0 <= x) l -> max_of l <= sum_of l /\ 0 <= sum_of l.
Proof.
  induction 1 as [|x l Hx Hl IH]; step_lists; lia.
Qed.

(** The loop of [Container::dimensions], from any pair of accumulators. *)
Lemma dimensions_loop (children : list Element) (max_width sum_height : Z) :
  0 <= max_width -> wrap sum_height = sum_height ->
  fold_left (fun acc child => dimensions_step (dimensions child) acc)
            children (max_width, sum_height)
  = (Z.max max_width (max_of (widths children)),
     wrap (sum_height + sum_of (heights children))).
Proof.
  revert max_width sum_height.
  induction children as [|c cs IH]; intros mw sh Hmw Hsh; simpl.
  - rewrite Z.add_0_r, Hsh. f_equal. lia.
  - rewrite IH by (apply wrap_idem || lia).
    unfold size_add. rewrite wrap_add_l. f_equal; [lia | f_equal; lia].
Qed.

Lemma dimensions_Container (children : list Element) :
  dimensions (Container children)
  = {| width := size_add (max_of (widths children)) 2;
       height := wrap (sum_of (heights children)) |}.
Proof.
  cbn [dimensions]. rewrite dimensions_loop by (reflexivity || lia).
  pose proof (max_of_nonneg (widths children)).
  rewrite Z.max_r by assumption. reflexivity.
Qed.

Lemma footprint_Container (children : list Element) :
  footprint (Container children)
  = object_bytes + sum_of (map footprint children).
Proof.
  cbn [footprint]. induction children as [|c cs IH]; step_lists; [lia|].
  rewrite IH. lia.
Qed.

(** Widths and heights are never negative, and are accounted for in the
    footprint of the tree. *)
Lemma dimensions_bounds (e : Element) :
  0 <= width (dimensions e) <= footprint e - 2 /\
  0 <= height (dimensions e) <= footprint e.
Proof.
  induction e as [text|text|children IH] using Element_ind.
  - cbn [dimensions footprint width height].
    pose proof (size_nonneg text). unfold object_bytes. lia.
  - cbn [dimensions footprint width height].
    pose proof (size_nonneg text). unfold object_bytes. lia.
  - rewrite dimensions_Container, footprint_Container. cbn [width height].
    assert (Hsum : max_of (widths children) + 2 <= sum_of (map footprint children) + 2
                   /\ 0 <= sum_of (heights children) <= sum_of (map footprint children)).
    { induction IH as [|c cs Hc Hcs IHcs]; step_lists; [lia|].
      pose proof (max_of_nonneg (widths cs)). step_lists. lia. }
    pose proof (max_of_nonneg (widths children)).
    pose proof (wrap_range (max_of (widths children) + 2)) as Hr1.
    pose proof (wrap_range (sum_of (heights children))) as Hr2.
    pose proof (wrap_le (max_of (widths children) + 2)).
    pose proof (wrap_le (sum_of (heights children))).
    unfold size_add, in_range, object_bytes in *. lia.
Qed.

Lemma widths_nonneg (children : list Element) :
  Forall (fun x => 0 <= x) (widths children).
Proof.
  unfold widths. apply Forall_map, Forall_forall. intros c _.
  apply dimensions_bounds.
Qed.

Lemma heights_nonneg (children : list Element) :
  Forall (fun x => 0 <= x) (heights children).
Proof.
  unfold heights. apply Forall_map, Forall_forall. intros c _.
  apply dimensions_bounds.
Qed.

Lemma sum_footprint_nonneg (children : list Element) :
  0 <= sum_of (map footprint children).
Proof.
  induction children as [|c cs IH]; step_lists; [lia|].
  pose proof (dimensions_bounds c). lia.
Qed.

Lemma footprint_le_sum (children : list Element) (c : Element) :
  In c children -> footprint c <= sum_of (map footprint children).
Proof.
  induction children as [|d ds IH]; cbn [In]; step_lists; [tauto|].
  pose proof (sum_footprint_nonneg ds).
  intros [->|Hin].
  - lia.
  - specialize (IH Hin). pose proof (dimensions_bounds d). lia.
Qed.

(** The widest child and all the rows are accounted for in the
    footprints of the children. *)
Lemma children_le_sum_footprint (children : list Element) :
  max_of (widths children) <= sum_of (map footprint children) /\
  sum_of (heights children) <= sum_of (map footprint children).
Proof.
  induction children as [|c cs IH]; step_lists; [lia|].
  pose proof (dimensions_bounds c).
  pose proof (max_of_nonneg (map (fun c => width (dimensions c)) cs)).
  pose proof (sum_footprint_nonneg cs). lia.
Qed.

(** In a tree that fits in memory, neither [max_width + 2] nor the sum of
    the heights wraps. *)
Lemma fits_no_wrap (children : list Element) :
  fits (Container children) ->
  in_range (max_of (widths children) + 2) /\
  in_range (sum_of (heights children)).
Proof.
  unfold fits. rewrite footprint_Container. intros Hfit.
  pose proof (children_le_sum_footprint children).
  pose proof (max_of_nonneg (widths children)).
  pose proof (proj2 (max_of_le_sum _ (heights_nonneg children))).
  unfold in_range, object_bytes in *. lia.
Qed.

Lemma fits_dimensions (children : list Element) :
  fits (Container children) ->
  dimensions (Container children)
  = {| width := max_of (widths children) + 2;
       height := sum_of (heights children) |}.
Proof.
  intros Hfit. destruct (fits_no_wrap children Hfit) as [Hw Hh].
  rewrite dimensions_Container. unfold size_add.
  now rewrite (wrap_small _ Hw), (wrap_small _ Hh).
Qed.

(** The children of a tree that fits in memory fit in memory. *)
Lemma fits_child (children : list Element) (c : Element) :
  fits (Container children) -> In c children -> fits c.
Proof.
  unfold fits. rewrite footprint_Container. intros Hfit Hin.
  pose proof (footprint_le_sum _ _ Hin). unfold object_bytes in *. lia.
Qed.

End Measure.

(** ** Rendering *)

Section Render.

Lemma render_Container (children : list Element) (cout : ostream) :
  render (Container children) cout
  = let dims := dimensions (Container children) in
    render_line dims
      (fold_left (render_child dims) children (render_line dims cout)).
Proof. reflexivity. Qed.

Lemma render_line_spec (dims : Dimensions) (cout : ostream) :
  render_line dims cout = cout ++ border_text dims ++ endl.
Proof.
  unfold render_line, border_text, put. rewrite put_n_spec.
  now rewrite !append_assoc.
Qed.

Lemma render_children (dims : Dimensions) (children : list Element) :
  Forall (fun c => forall cout, render c cout = cout ++ output c) children ->
  forall cout,
    fold_left (render_child dims) children cout = cout ++ rows dims children.
Proof.
  induction 1 as [|c cs Hc _ IH]; intros cout; cbn [fold_left rows].
  - now rewrite append_nil_r.
  - rewrite IH. unfold render_child, row_text, put.
    rewrite put_n_spec, Hc. now rewrite !append_assoc.
Qed.

(** [render] only appends to the stream. *)
Lemma render_frame (e : Element) (cout : ostream) :
  render e cout = cout ++ output e.
Proof.
  revert cout. induction e as [text|text|children IH] using Element_ind;
    intros cout.
  - reflexivity.
  - unfold output. cbn [render]. unfold put. cbn [append].
    now rewrite !append_assoc.
  - unfold output. rewrite !render_Container. cbv zeta.
    rewrite !render_line_spec, !(render_children _ _ IH).
    cbn [append]. now rewrite !append_assoc.
Qed.

Lemma output_Container (children : list Element) :
  output (Container children)
  = let dims := dimensions (Container children) in
    border_text dims ++ endl ++ rows dims children ++ border_text dims ++ endl.
Proof.
  unfold output. rewrite render_Container. cbv zeta.
  rewrite !render_line_spec, render_children.
  - cbn [append]. now rewrite !append_assoc.
  - apply Forall_forall. intros c _ cout. apply render_frame.
Qed.

Lemma output_Text (text : string) : output (Text text) = text.
Proof. reflexivity. Qed.

Lemma output_Heading (text : string) :
  output (Heading text) = bold_on ++ text ++ style_reset.
Proof. unfold output. cbn [render]. unfold put. cbn [append]. apply append_assoc. Qed.

End Render.

(** ** Lines of the output *)

Section Lines.

Lemma lines_line (l rest : string) :
  has LF l = false -> lines (l ++ endl ++ rest) = l :: lines rest.
Proof.
  induction l as [|c l IH]; cbn [has append lines]; intros H.
  - reflexivity.
  - apply orb_false_elim in H as [Hc Hl].
    rewrite Hc, (IH Hl). reflexivity.
Qed.

Lemma has_LF_border (dims : Dimensions) : has LF (border_text dims) = false.
Proof.
  unfold border_text. rewrite !has_append, has_repeat_char; reflexivity.
Qed.

Lemma has_LF_row (dims : Dimensions) (child : Element) :
  has LF (output child) = false -> has LF (row_text dims child) = false.
Proof.
  intros H. unfold row_text.
  rewrite !has_append, H, has_repeat_char; reflexivity.
Qed.

Lemma one_line_leaf_output (child : Element) :
  one_line_leaf child = true -> has LF (output child) = false.
Proof.
  unfold one_line_leaf. intros H. apply andb_prop in H as [Hleaf Hlf].
  apply negb_true_iff in Hlf.
  destruct child as [text|text|children]; cbn [is_leaf content] in *.
  - now rewrite output_Text.
  - rewrite output_Heading, !has_append, Hlf. reflexivity.
  - discriminate.
Qed.

Lemma lines_rows (dims : Dimensions) (children : list Element) (rest : string) :
  Forall (fun c => has LF (output c) = false) children ->
  lines (rows dims children ++ rest)
  = (map (row_text dims) children ++ lines rest)%list.
Proof.
  induction 1 as [|c cs Hc _ IH]; cbn [rows map app append].
  - reflexivity.
  - rewrite !append_assoc, lines_line by now apply has_LF_row.
    now rewrite IH.
Qed.

(** The lines of a box whose children write no line break: the border,
    one row per child, the border. *)
Lemma lines_output_Container (children : list Element) :
  Forall (fun c => has LF (output c) = false) children ->
  lines (output (Container children))
  = let dims := dimensions (Container children) in
    border_text dims
      :: (map (row_text dims) children ++ [border_text dims])%list.
Proof.
  intros H. rewrite output_Container. cbv zeta.
  rewrite lines_line by apply has_LF_border.
  rewrite lines_rows by assumption.
  rewrite <- (append_nil_r endl) at 1.
  rewrite lines_line by apply has_LF_border. reflexivity.
Qed.

Lemma dashes_then_plus_repeat (n : nat) :
  dashes_then_plus (repeat_string n "-" ++ "+") = true.
Proof.
  induction n as [|n IH]; [reflexivity|].
  cbn [repeat_string append]. cbn [dashes_then_plus].
  destruct (repeat_string n "-" ++ "+") eqn:E; [discriminate IH|].
  cbn [Ascii.eqb Bool.eqb andb]. exact IH.
Qed.

Lemma is_border_row_border (dims : Dimensions) :
  is_border_row (border_text dims) = true.
Proof.
  unfold border_text. cbn [append is_border_row].
  rewrite dashes_then_plus_repeat. reflexivity.
Qed.

Lemma last_char_append (s : string) (c : ascii) :
  last_char (s ++ String c "") = Some c.
Proof.
  induction s as [|x s IH]; [reflexivity|].
  cbn [append last_char]. destruct (s ++ String c "") eqn:E; [|exact IH].
  destruct s; discriminate E.
Qed.

Lemma is_content_row_row (dims : Dimensions) (child : Element) :
  is_content_row (row_text dims child) = true.
Proof.
  unfold is_content_row, row_text.
  rewrite <- !append_assoc, last_char_append. reflexivity.
Qed.

Lemma framed_box (dims : Dimensions) (children : list Element) :
  framed (border_text dims
            :: (map (row_text dims) children ++ [border_text dims])%list)
  = true.
Proof.
  unfold framed. rewrite rev_app_distr. cbn [rev app].
  rewrite is_border_row_border. cbn [andb].
  apply forallb_forall. intros r Hr. apply in_rev, in_map_iff in Hr.
  destruct Hr as [c [<- _]]. apply is_content_row_row.
Qed.

End Lines.

(** ** Visible characters *)

Section Visible.

Lemma strip_plain (a b : string) :
  has ESC a = false -> strip_style 0 (a ++ b) = a ++ strip_style 0 b.
Proof.
  induction a as [|c a IH]; cbn [has append]; intros H; [reflexivity|].
  apply orb_false_elim in H as [Hc Ha].
  cbn [strip_style starts bold_on style_reset].
  rewrite (Ascii.eqb_sym ESC c), Hc. cbn [andb orb].
  now rewrite (IH Ha).
Qed.

Lemma strip_bold_on (b : string) :
  strip_style 0 (bold_on ++ b) = strip_style 0 b.
Proof. reflexivity. Qed.

Lemma strip_style_reset (b : string) :
  strip_style 0 (style_reset ++ b) = strip_style 0 b.
Proof. reflexivity. Qed.

Lemma visible_plain (a : string) : has ESC a = false -> visible a = a.
Proof.
  intros H. unfold visible. rewrite <- (append_nil_r a) at 1.
  rewrite strip_plain by assumption. cbn [strip_style]. apply append_nil_r.
Qed.

(** The control sequences of a [Heading] are not visible. *)
Lemma visible_Heading (text : string) :
  has ESC text = false -> visible (output (Heading text)) = text.
Proof.
  intros H. rewrite output_Heading. unfold visible.
  rewrite strip_bold_on, strip_plain by assumption.
  rewrite <- (append_nil_r style_reset), strip_style_reset.
  cbn [strip_style]. apply append_nil_r.
Qed.

Lemma visible_width_border (dims : Dimensions) :
  visible_width (border_text dims)
  = Z.of_nat (Z.to_nat (size_sub (width dims) 2)) + 2.
Proof.
  unfold visible_width. rewrite visible_plain.
  - unfold border_text. rewrite !length_append, length_repeat_char.
    cbn [String.length]. lia.
  - unfold border_text. rewrite !has_append, has_repeat_char; reflexivity.
Qed.

(** The visible characters of the row of a leaf: the borders, the content
    and the padding. *)
Lemma visible_row (dims : Dimensions) (child : Element) :
  is_leaf child = true -> has ESC (content child) = false ->
  visible (row_text dims child)
  = "|" ++ content child
        ++ repeat_string
             (Z.to_nat (padding (width dims) (width (dimensions child)))) " "
        ++ "|".
Proof.
  intros Hleaf Hesc. unfold visible, row_text.
  destruct child as [text|text|children]; cbn [is_leaf content] in *;
    [| |discriminate].
  - rewrite output_Text.
    change (strip_style 0 ?s) with (visible s). apply visible_plain.
    rewrite !has_append, Hesc, has_repeat_char; reflexivity.
  - rewrite output_Heading.
    rewrite (strip_plain "|") by reflexivity. f_equal.
    rewrite !append_assoc, strip_bold_on.
    rewrite strip_plain by assumption. f_equal.
    rewrite strip_style_reset.
    change (strip_style 0 ?s) with (visible s). apply visible_plain.
    rewrite !has_append, has_repeat_char; reflexivity.
Qed.

Lemma visible_width_row (dims : Dimensions) (child : Element) :
  is_leaf child = true -> has ESC (content child) = false ->
  visible_width (row_text dims child)
  = size (content child)
    + Z.of_nat (Z.to_nat (padding (width dims) (width (dimensions child))))
    + 2.
Proof.
  intros Hleaf Hesc. unfold visible_width.
  rewrite visible_row by assumption.
  rewrite !length_append, length_repeat_char. cbn [String.length].
  unfold size. lia.
Qed.

End Visible.

(** ** Padding *)

Section Padding.

Lemma width_le_max (children : list Element) (c : Element) :
  In c children -> width (dimensions c) <= max_of (widths children).
Proof.
  intros Hin. apply max_of_ge. unfold widths.
  apply in_map_iff. now exists c.
Qed.

(** Neither subtraction of the padding wraps: the width of a child is at
    most the width of its container minus 2. *)
Lemma padding_exact (children : list Element) (c : Element) :
  fits (Container children) -> In c children ->
  let dims := dimensions (Container children) in
  width (dimensions c) <= width dims - 2 /\
  size_sub (width dims) 2 = width dims - 2 /\
  padding (width dims) (width (dimensions c))
  = width dims - 2 - width (dimensions c).
Proof.
  intros Hfit Hin dims. subst dims.
  rewrite (fits_dimensions _ Hfit). cbn [width].
  destruct (fits_no_wrap _ Hfit) as [Hw _].
  pose proof (width_le_max _ _ Hin) as Hle.
  pose proof (dimensions_bounds c) as [[Hc _] _].
  unfold in_range in Hw.
  assert (H2 : size_sub (max_of (widths children) + 2) 2
               = max_of (widths children) + 2 - 2).
  { unfold size_sub. apply wrap_small. unfold in_range. lia. }
  repeat split; [lia | exact H2 |].
  unfold padding. rewrite H2. unfold size_sub. apply wrap_small.
  unfold in_range. lia.
Qed.

End Padding.

(** ** Boxes of leaves *)

Section LeafBoxes.

Lemma leaf_dimensions (c : Element) :
  is_leaf c = true ->
  dimensions c = {| width := size (content c); height := 1 |}.
Proof. destruct c; [reflexivity | reflexivity | discriminate]. Qed.

Lemma sum_heights_leaves (children : list Element) :
  Forall (fun c => is_leaf c = true) children ->
  sum_of (heights children) = Z.of_nat (List.length children).
Proof.
  induction 1 as [|c cs Hc _ IH]; [reflexivity|].
  unfold heights in *. cbn [map sum_of List.length].
  rewrite IH, (leaf_dimensions c Hc). cbn [height]. lia.
Qed.

Lemma plain_leaf_parts (c : Element) :
  plain_leaf c = true ->
  is_leaf c = true /\ has LF (content c) = false
  /\ has ESC (content c) = false.
Proof.
  unfold plain_leaf, one_line_leaf. intros H.
  apply andb_prop in H as [H Hesc]. apply andb_prop in H as [Hleaf Hlf].
  apply negb_true_iff in Hlf, Hesc. auto.
Qed.

Lemma plain_leaf_one_line (c : Element) :
  plain_leaf c = true -> one_line_leaf c = true.
Proof. unfold plain_leaf. intros H. now apply andb_prop in H. Qed.

(** The inner width [dims.width - 2] of a box that fits in memory. *)
Lemma inner_width (children : list Element) :
  fits (Container children) ->
  let dims := dimensions (Container children) in
  size_sub (width dims) 2 = width dims - 2 /\ 2 <= width dims.
Proof.
  intros Hfit dims. subst dims. rewrite (fits_dimensions _ Hfit).
  cbn [width]. destruct (fits_no_wrap _ Hfit) as [Hw _].
  pose proof (max_of_nonneg (widths children)).
  unfold in_range in Hw. split; [|lia].
  unfold size_sub. apply wrap_small. unfold in_range. lia.
Qed.

Lemma box_lines_leaves (children : list Element) :
  fits (Container children) ->
  Forall (fun c => one_line_leaf c = true) children ->
  box_lines (Container children).
Proof.
  intros Hfit Hleaves. unfold box_lines.
  rewrite lines_output_Container.
  - cbv zeta. cbn [List.length]. rewrite length_app, length_map.
    rewrite (fits_dimensions _ Hfit). cbn [height List.length].
    rewrite sum_heights_leaves; [lia|].
    eapply Forall_impl; [|exact Hleaves]. cbv beta. intros c Hc.
    unfold one_line_leaf in Hc. now apply andb_prop in Hc.
  - eapply Forall_impl; [|exact Hleaves]. apply one_line_leaf_output.
Qed.

Lemma box_columns_leaves (children : list Element) :
  fits (Container children) ->
  Forall (fun c => plain_leaf c = true) children ->
  box_columns (Container children).
Proof.
  intros Hfit Hleaves. unfold box_columns.
  destruct (inner_width _ Hfit) as [Hinner Hge].
  assert (Hborder : visible_width (border_text (dimensions (Container children)))
                    = width (dimensions (Container children))).
  { rewrite visible_width_border, Hinner. lia. }
  rewrite lines_output_Container.
  - cbv zeta. constructor; [exact Hborder|].
    apply Forall_app. split; [|constructor; [exact Hborder | constructor]].
    apply Forall_map, Forall_forall. intros c Hin.
    pose proof (proj1 (Forall_forall _ _) Hleaves c Hin) as Hc.
    apply plain_leaf_parts in Hc as (Hleaf & _ & Hesc).
    destruct (padding_exact _ _ Hfit Hin) as (Hle & _ & Hpad).
    rewrite visible_width_row, Hpad by assumption.
    rewrite (leaf_dimensions c Hleaf) in *. cbn [width] in *. lia.
  - eapply Forall_impl; [|exact Hleaves]. intros c Hc.
    now apply one_line_leaf_output, plain_leaf_one_line.
Qed.

End LeafBoxes.

(** * The claims of the specification *)

(** C1: for every Container (that fits in memory) with children c1..cn,
    dimensions() returns as width the maximum of the children's measured
    widths plus 2 and as height the sum of the children's measured heights;
    a Container with no children measures {width: 2, height: 0}; and a
    Container nested in another one contributes its full bordered width,
    its own +2 included, to the maximum of the outer one. *)
Theorem C1_container_dimensions (children : list Element) :
  fits (Container children) ->
  width (dimensions (Container children)) = max_of (widths children) + 2 /\
  height (dimensions (Container children)) = sum_of (heights children) /\
  dimensions (Container []) = {| width := 2; height := 0 |} /\
  (forall inner, In (Container inner) children ->
     width (dimensions (Container inner)) = max_of (widths inner) + 2 /\
     width (dimensions (Container inner)) + 2
     <= width (dimensions (Container children))).
Proof.
  intros Hfit. rewrite (fits_dimensions _ Hfit). cbn [width height].
  split; [reflexivity|]. split; [reflexivity|]. split; [reflexivity|].
  intros inner Hin. split.
  - rewrite (fits_dimensions inner); [reflexivity|].
    now apply (fits_child children).
  - pose proof (width_le_max _ _ Hin). lia.
Qed.

Lemma C1_container_dimensions_witness :
  fits (Container nested_children) /\
  width (dimensions (Container nested_children)) = 33 /\
  height (dimensions (Container nested_children)) = 3 /\
  width (dimensions (Container main_children)) + 2
  <= width (dimensions (Container nested_children)).
Proof.
  assert (Hfit : fits (Container nested_children)) by reflexivity.
  destruct (C1_container_dimensions nested_children Hfit)
    as (Hw & Hh & _ & Hin).
  split; [exact Hfit|]. split; [exact Hw|]. split; [exact Hh|].
  apply (Hin main_children). left. reflexivity.
Defined.

(** C2, as the code has it: for every Container (that fits in memory) whose
    children are all Text or Heading elements with a content free of line
    breaks and of escape characters, render() emits exactly height + 2
    lines, and every line holds exactly width characters, the bold and
    reset control sequences not counted. *)
Theorem C2_leaf_box (children : list Element) :
  fits (Container children) ->
  forallb plain_leaf children = true ->
  box_lines (Container children) /\ box_columns (Container children).
Proof.
  intros Hfit Hleaves.
  assert (Hall : Forall (fun c => plain_leaf c = true) children).
  { apply Forall_forall. now apply forallb_forall. }
  split.
  - apply box_lines_leaves; [assumption|].
    eapply Forall_impl; [|exact Hall]. apply plain_leaf_one_line.
  - now apply box_columns_leaves.
Qed.

Lemma C2_leaf_box_witness :
  box_lines main_container /\ box_columns main_container.
Proof.
  apply (C2_leaf_box main_children); reflexivity.
Defined.

(** C2 fails as stated: a Container that holds an empty Container has
    height 0 and is rendered on 5 lines, not on 2. *)
Lemma C2_nested_box_counterexample :
  fits (Container [Container []]) /\
  lines (output (Container [Container []])) = ["+--+"; "|++"; "++"; "|"; "+--+"] /\
  height (dimensions (Container [Container []])) = 0 /\
  ~ (box_lines (Container [Container []])
     /\ box_columns (Container [Container []])).
Proof.
  split; [reflexivity|]. split; [reflexivity|]. split; [reflexivity|].
  intros [H _]. unfold box_lines in H. vm_compute in H. discriminate H.
Qed.

(** The two conditions on the content are needed as well: a line break in
    a content adds a line, and a control sequence in a content is counted
    in the width but is not visible. *)
Example box_lines_line_break :
  is_leaf (Text (String "a" (String LF "b"))) = true /\
  ~ box_lines (Container [Text (String "a" (String LF "b"))]).
Proof.
  split; [reflexivity|]. intros H. unfold box_lines in H.
  vm_compute in H. discriminate H.
Qed.

Example box_columns_escape :
  is_leaf (Text bold_on) = true /\
  width (dimensions (Container [Text bold_on])) = 6 /\
  visible (row_text (dimensions (Container [Text bold_on])) (Text bold_on))
  = "||" /\
  ~ box_columns (Container [Text bold_on]).
Proof.
  split; [reflexivity|]. split; [reflexivity|]. split; [reflexivity|].
  intros H. unfold box_columns in H.
  rewrite lines_output_Container in H by (repeat constructor).
  cbv zeta in H. cbn [map app] in H.
  inversion H as [|? ? _ Hrows]. inversion Hrows as [|? ? Hrow _].
  vm_compute in Hrow. discriminate Hrow.
Qed.

(** C3, as the code has it: the lines that render() writes for a Container
    whose children are all Text or Heading elements with a content free of
    line breaks are a border row, content rows, and a border row; every
    content row starts with '|' and ends with '|', every border row starts
    with '+', ends with '+' and holds only '-' in between. *)
Theorem C3_leaf_rows (children : list Element) :
  forallb one_line_leaf children = true ->
  framed (lines (output (Container children))) = true.
Proof.
  intros Hleaves. rewrite lines_output_Container.
  - apply framed_box.
  - apply Forall_forall. intros c Hc. apply one_line_leaf_output.
    now apply (proj1 (forallb_forall _ _) Hleaves).
Qed.

Lemma C3_leaf_rows_witness :
  framed (lines (output main_container)) = true.
Proof.
  apply (C3_leaf_rows main_children). reflexivity.
Defined.

(** C3 fails as stated: the row of a Text whose content holds a line break
    is cut in two lines, the first without its closing '|'. *)
Lemma C3_line_break_counterexample :
  forallb is_leaf [Text (String "a" (String LF "b"))] = true /\
  lines (output (Container [Text (String "a" (String LF "b"))]))
  = ["+---+"; "|a"; "b|"; "+---+"] /\
  framed (lines (output (Container [Text (String "a" (String LF "b"))])))
  = false.
Proof. repeat split. Qed.

(** C5, as the code has it: for the Container of main, which holds a
    Heading "Hello world" (11 characters) and a Text "This is a long string
    of text" (29 characters), dimensions() returns {width: 31, height: 2},
    and render() writes exactly 4 lines: a border of 31 characters, '|' then
    the bold "Hello world" then 18 spaces then '|', then
    "|This is a long string of text|" without padding, then the border
    again. *)
Theorem C5_main_box :
  dimensions main_container = {| width := 31; height := 2 |} /\
  lines (output main_container)
  = [ "+" ++ repeat_string 29 "-" ++ "+";
      "|" ++ bold_on ++ "Hello world" ++ style_reset
          ++ repeat_string 18 " " ++ "|";
      "|This is a long string of text|";
      "+" ++ repeat_string 29 "-" ++ "+" ] /\
  last_char (output main_container) = Some LF /\
  main "" = ([], output main_container).
Proof. repeat split. Qed.

(** C5 fails as stated: the Text of main has 29 characters, not 30, so the
    box is 31 wide, not 32, and the Heading is padded with 18 spaces, not
    21. *)
Lemma C5_main_box_counterexample :
  size "This is a long string of text" = 29 /\
  dimensions main_container <> {| width := 32; height := 2 |} /\
  nth 1 (lines (output main_container)) ""
  <> "|" ++ bold_on ++ "Hello world" ++ style_reset
         ++ repeat_string 21 " " ++ "|".
Proof.
  split; [reflexivity|]. split; intros H; vm_compute in H; discriminate H.
Qed.

(** C6: for every Text or Heading element whose content has length L,
    dimensions() returns width L and height 1. *)
Theorem C6_leaf_dimensions (text : string) :
  dimensions (Text text)
  = {| width := Z.of_nat (String.length text); height := 1 |} /\
  dimensions (Heading text)
  = {| width := Z.of_nat (String.length text); height := 1 |}.
Proof. split; reflexivity. Qed.

(** C7: render() of a Text appends the content to the stream as it is, and
    nothing else; render() of a Heading appends the content between the
    bold and the reset control sequences, ends on the reset sequence and
    not on a line break, and the Heading measures what the Text of the same
    content measures. *)
Theorem C7_leaf_render (text : string) (cout : ostream) :
  render (Text text) cout = cout ++ text /\
  render (Heading text) cout = cout ++ bold_on ++ text ++ style_reset /\
  last_char (render (Heading text) cout) = Some "m"%char /\
  is_char LF (last_char (render (Heading text) cout)) = false /\
  dimensions (Heading text) = dimensions (Text text).
Proof.
  assert (Hlast : last_char (render (Heading text) cout) = Some "m"%char).
  { cbn [render]. unfold put, style_reset.
    change (String ESC "[0m") with ((String ESC "[0") ++ "m").
    rewrite <- append_assoc. apply last_char_append. }
  repeat split.
  - cbn [render]. unfold put. now rewrite !append_assoc.
  - exact Hlast.
  - now rewrite Hlast.
Qed.

(** The loop of [Container::dimensions], when the calls on the children
    change neither the child nor the stream. *)
Lemma dimensions_call_loop (children : list Element) :
  Forall (fun c => forall cout, dimensions_call c cout = (dimensions c, c, cout))
         children ->
  forall acc visited cout,
    fold_left (dimensions_call_step dimensions_call) children
              (acc, visited, cout)
    = (fold_left (fun acc child => dimensions_step (dimensions child) acc)
                 children acc,
       (visited ++ children)%list, cout).
Proof.
  induction 1 as [|c cs Hc _ IH]; intros acc visited cout; cbn [fold_left].
  - now rewrite app_nil_r.
  - unfold dimensions_call_step at 2. rewrite Hc, IH.
    now rewrite <- app_assoc.
Qed.

(** A call of [dimensions()] returns [dimensions e] and hands back the
    object and the stream as it got them. *)
Lemma dimensions_call_spec (e : Element) (cout : ostream) :
  dimensions_call e cout = (dimensions e, e, cout).
Proof.
  revert cout. induction e as [text|text|children IH] using Element_ind;
    intros cout; [reflexivity | reflexivity |].
  cbn [dimensions_call dimensions].
  rewrite (dimensions_call_loop children IH). cbn [app].
  destruct (fold_left (fun acc child => dimensions_step (dimensions child) acc)
                      children (0, 0)) as [max_width sum_height].
  reflexivity.
Qed.

(** C8: dimensions() has no side effect and is idempotent: a call on any
    element leaves the element, the elements it owns and the output stream
    as they were, and a second call returns the same Dimensions as the
    first. *)
Theorem C8_dimensions_idempotent (e : Element) (cout : ostream) :
  let '(dims1, e1, cout1) := dimensions_call e cout in
  let '(dims2, e2, cout2) := dimensions_call e1 cout1 in
  e1 = e /\ cout1 = cout /\ e2 = e /\ cout2 = cout /\
  dims2 = dims1 /\ dims1 = dimensions e.
Proof.
  rewrite (dimensions_call_spec e cout).
  rewrite (dimensions_call_spec e cout).
  repeat split.
Qed.

(** C9: for every Container (that fits in memory), the measured width of
    every child is at most the measured width of the Container minus 2; so
    the padding dims.width - 2 - child_dims.width of render() is not
    negative, and neither unsigned subtraction wraps. *)
Theorem C9_padding_never_wraps (children : list Element) (child : Element) :
  fits (Container children) -> In child children ->
  let dims := dimensions (Container children) in
  let child_dims := dimensions child in
  width child_dims <= width dims - 2 /\
  0 <= width dims - 2 - width child_dims /\
  size_sub (width dims) 2 = width dims - 2 /\
  padding (width dims) (width child_dims) = width dims - 2 - width child_dims.
Proof.
  intros Hfit Hin dims child_dims.
  destruct (padding_exact children child Hfit Hin) as (Hle & Hinner & Hpad).
  fold dims in Hle, Hinner, Hpad. fold child_dims in Hle, Hpad.
  repeat split; (assumption || lia).
Qed.

Lemma C9_padding_never_wraps_witness :
  width (dimensions (Heading "Hello world")) <= width (dimensions main_container) - 2 /\
  padding (width (dimensions main_container))
          (width (dimensions (Heading "Hello world")))
  = width (dimensions main_container) - 2
    - width (dimensions (Heading "Hello world")).
Proof.
  assert (Hfit : fits (Container main_children)) by reflexivity.
  assert (Hin : In (Heading "Hello world") main_children)
    by (left; reflexivity).
  destruct (C9_padding_never_wraps main_children _ Hfit Hin)
    as (Hle & _ & _ & Hpad).
  split; [exact Hle | exact Hpad].
Defined.

(** * Further properties of the code *)

(** ** Whole lines *)

Section WholeLines.

Lemma last_char_app (a b : string) :
  b <> "" -> last_char (a ++ b) = last_char b.
Proof.
  intros Hb. induction a as [|c a IH]; [reflexivity|].
  cbn [append last_char]. destruct (a ++ b) eqn:E; [|exact IH].
  destruct a; cbn [append] in E; [contradiction | discriminate E].
Qed.

Lemma terminated_endl (a : string) : terminated (a ++ endl).
Proof. right. apply last_char_append. Qed.

Lemma terminated_app (a b : string) :
  terminated a -> terminated b -> terminated (a ++ b).
Proof.
  intros Ha [->|Hb].
  - now rewrite append_nil_r.
  - right. rewrite last_char_app; [exact Hb|]. intros ->. discriminate Hb.
Qed.

Lemma terminated_tail (c : ascii) (s : string) :
  terminated (String c s) -> s <> "" -> terminated s.
Proof.
  intros [H|H] Hs; [discriminate H|]. right.
  destruct s; [contradiction | exact H].
Qed.

Lemma lines_nonempty (c : ascii) (s : string) : lines (String c s) <> [].
Proof.
  cbn [lines]. destruct (Ascii.eqb c LF); [discriminate|].
  destruct (lines s); discriminate.
Qed.

(** After whole lines, the lines of what follows come unchanged. *)
Lemma lines_app (a b : string) :
  terminated a -> lines (a ++ b) = (lines a ++ lines b)%list.
Proof.
  induction a as [|c a IH]; intros Ha; [reflexivity|].
  cbn [append lines].
  destruct (Ascii.eqb c LF) eqn:Ec.
  - destruct a as [|d a'].
    + reflexivity.
    + rewrite IH; [reflexivity|]. now apply (terminated_tail c).
  - destruct a as [|d a'].
    + destruct Ha as [H|H]; [discriminate H|].
      cbn [last_char] in H. injection H as ->. discriminate Ec.
    + rewrite IH by now apply (terminated_tail c).
      pose proof (lines_nonempty d a') as Hne.
      destruct (lines (String d a')); [contradiction|reflexivity].
Qed.

(** Whole lines are as many as their line breaks. *)
Lemma length_lines (s : string) :
  terminated s -> Z.of_nat (List.length (lines s)) = count_LF s.
Proof.
  induction s as [|c s IH]; intros Hs; [reflexivity|].
  cbn [lines count_LF].
  destruct (Ascii.eqb c LF) eqn:Ec.
  - cbn [List.length]. destruct s as [|d s'].
    + reflexivity.
    + rewrite <- IH by now apply (terminated_tail c). lia.
  - destruct s as [|d s'].
    + destruct Hs as [H|H]; [discriminate H|].
      cbn [last_char] in H. injection H as ->. discriminate Ec.
    + rewrite <- IH by now apply (terminated_tail c).
      pose proof (lines_nonempty d s') as Hne.
      destruct (lines (String d s')); [contradiction|].
      cbn [List.length]. lia.
Qed.

Lemma count_LF_append (a b : string) :
  count_LF (a ++ b) = count_LF a + count_LF b.
Proof.
  induction a as [|c a IH]; cbn [append count_LF]; [reflexivity|].
  rewrite IH. lia.
Qed.

Lemma count_LF_none (s : string) : has LF s = false -> count_LF s = 0.
Proof.
  induction s as [|c s IH]; cbn [has count_LF]; intros H; [reflexivity|].
  apply orb_false_elim in H as [Hc Hs]. rewrite Hc, (IH Hs). reflexivity.
Qed.

Lemma rows_terminated (dims : Dimensions) (children : list Element) :
  terminated (rows dims children).
Proof.
  induction children as [|c cs IH]; cbn [rows]; [now left|].
  rewrite <- append_assoc. apply terminated_app; [apply terminated_endl | exact IH].
Qed.

Lemma output_Container_terminated (children : list Element) :
  terminated (output (Container children)).
Proof.
  rewrite output_Container. cbv zeta.
  rewrite <- !append_assoc. apply terminated_endl.
Qed.

End WholeLines.

(** ** Counting lines, leaves and Containers *)

Section Counting.

Lemma count_LF_border (dims : Dimensions) : count_LF (border_text dims) = 0.
Proof. apply count_LF_none, has_LF_border. Qed.

Lemma count_LF_row (dims : Dimensions) (child : Element) :
  count_LF (row_text dims child) = count_LF (output child).
Proof.
  unfold row_text. rewrite !count_LF_append.
  rewrite (count_LF_none (repeat_string _ " "))
    by (apply has_repeat_char; reflexivity).
  cbn [count_LF Ascii.eqb]. cbn. lia.
Qed.

Lemma count_LF_rows (dims : Dimensions) (children : list Element) :
  count_LF (rows dims children)
  = Z.of_nat (List.length children)
    + sum_of (map (fun c => count_LF (output c)) children).
Proof.
  induction children as [|c cs IH]; [reflexivity|].
  cbn [rows map sum_of List.length].
  rewrite !count_LF_append, count_LF_row, IH.
  change (count_LF endl) with 1. lia.
Qed.

Lemma count_LF_Container (children : list Element) :
  count_LF (output (Container children))
  = 2 + Z.of_nat (List.length children)
    + sum_of (map (fun c => count_LF (output c)) children).
Proof.
  rewrite output_Container. cbv zeta.
  rewrite !count_LF_append, count_LF_rows, count_LF_border.
  change (count_LF endl) with 1. lia.
Qed.

(** With contents of one line, an element writes one line break less than
    three per Container and one per leaf. *)
Lemma count_LF_tree (e : Element) :
  one_line_contents e = true ->
  count_LF (output e) + 1 = 3 * containers e + leaves e.
Proof.
  induction e as [text|text|children IH] using Element_ind;
    cbn [one_line_contents containers leaves]; intros H.
  - rewrite output_Text, count_LF_none; [reflexivity|].
    now apply negb_true_iff.
  - rewrite output_Heading, !count_LF_append.
    rewrite (count_LF_none text) by now apply negb_true_iff.
    reflexivity.
  - rewrite count_LF_Container.
    assert (Hsum : Z.of_nat (List.length children)
                   + sum_of (map (fun c => count_LF (output c)) children)
                   = 3 * sum_of (map containers children)
                     + sum_of (map leaves children)).
    { induction IH as [|c cs Hc _ IHcs]; [reflexivity|].
      cbn [forallb] in H. apply andb_prop in H as [H1 H2].
      specialize (Hc H1). specialize (IHcs H2).
      cbn [map sum_of List.length]. lia. }
    lia.
Qed.

(** The height of a tree that fits in memory is the number of its
    leaves. *)
Lemma height_leaves (e : Element) :
  fits e -> height (dimensions e) = leaves e.
Proof.
  induction e as [text|text|children IH] using Element_ind; intros Hfit;
    [reflexivity | reflexivity |].
  rewrite (fits_dimensions _ Hfit). cbn [height leaves].
  assert (Hall : Forall (fun c => height (dimensions c) = leaves c) children).
  { apply Forall_forall. intros c Hin.
    apply (proj1 (Forall_forall _ _) IH c Hin).
    now apply (fits_child children). }
  clear IH Hfit. unfold heights.
  induction Hall as [|c cs Hc _ IHcs]; [reflexivity|].
  cbn [map sum_of]. now rewrite Hc, IHcs.
Qed.

Lemma containers_nonneg (e : Element) : 0 <= containers e.
Proof.
  induction e as [text|text|children IH] using Element_ind;
    cbn [containers]; try lia.
  assert (0 <= sum_of (map containers children)); [|lia].
  induction IH as [|c cs Hc _ IHcs]; cbn [map sum_of]; lia.
Qed.

End Counting.

(** ** Measurement of rearranged children *)

Section Rearranged.

Lemma max_of_app (l1 l2 : list Z) :
  max_of (l1 ++ l2) = Z.max (max_of l1) (max_of l2).
Proof.
  induction l1 as [|x l1 IH]; cbn [app max_of].
  - pose proof (max_of_nonneg l2). lia.
  - rewrite IH. lia.
Qed.

Lemma sum_of_app (l1 l2 : list Z) :
  sum_of (l1 ++ l2) = sum_of l1 + sum_of l2.
Proof.
  induction l1 as [|x l1 IH]; cbn [app sum_of]; [reflexivity|].
  rewrite IH. lia.
Qed.

Lemma max_of_Permutation (l1 l2 : list Z) :
  Permutation l1 l2 -> max_of l1 = max_of l2.
Proof.
  induction 1 as [|x l l' _ IH|x y l|l l' l'' _ IH1 _ IH2];
    cbn [max_of]; lia.
Qed.

Lemma sum_of_Permutation (l1 l2 : list Z) :
  Permutation l1 l2 -> sum_of l1 = sum_of l2.
Proof.
  induction 1 as [|x l l' _ IH|x y l|l l' l'' _ IH1 _ IH2];
    cbn [sum_of]; lia.
Qed.

Lemma fits_app (a b : list Element) :
  fits (Container (a ++ b)) -> fits (Container a) /\ fits (Container b).
Proof.
  unfold fits. rewrite !footprint_Container, map_app, sum_of_app.
  pose proof (sum_footprint_nonneg a). pose proof (sum_footprint_nonneg b).
  lia.
Qed.

End Rearranged.

Lemma rows_app (dims : Dimensions) (a b : list Element) :
  rows dims (a ++ b) = rows dims a ++ rows dims b.
Proof.
  induction a as [|c a IH]; cbn [app rows append]; [reflexivity|].
  now rewrite IH, !append_assoc.
Qed.

Lemma lines_box (children : list Element) :
  let dims := dimensions (Container children) in
  lines (output (Container children))
  = border_text dims
      :: (lines (rows dims children) ++ [border_text dims])%list.
Proof.
  cbv zeta. rewrite output_Container. cbv zeta.
  rewrite lines_line by apply has_LF_border.
  rewrite lines_app by apply rows_terminated.
  rewrite <- (append_nil_r endl).
  rewrite lines_line by apply has_LF_border. reflexivity.
Qed.

(** ** Properties of [render] and [dimensions] *)

(** X1: render() only appends to the stream: what was written before stays
    as it is, what an element writes does not depend on it, and two
    elements rendered one after the other write their outputs one after the
    other. *)
Theorem X1_render_appends (e1 e2 : Element) (cout : ostream) :
  render e1 cout = cout ++ output e1 /\
  render e2 (render e1 cout) = cout ++ output e1 ++ output e2.
Proof.
  split; [apply render_frame|].
  rewrite (render_frame e2), (render_frame e1). apply append_assoc.
Qed.

(** X2: whatever its children are, the first and the last line that
    Container::render writes are the same border row, '+', dashes, '+',
    and the output ends with a line break. *)
Theorem X2_box_borders (children : list Element) :
  let dims := dimensions (Container children) in
  hd_error (lines (output (Container children))) = Some (border_text dims) /\
  last (lines (output (Container children))) "" = border_text dims /\
  is_border_row (border_text dims) = true /\
  last_char (output (Container children)) = Some LF.
Proof.
  cbv zeta. rewrite lines_box. cbv zeta. split; [reflexivity|]. split.
  - rewrite app_comm_cons. apply last_last.
  - split; [apply is_border_row_border|].
    rewrite output_Container. cbv zeta.
    rewrite <- !append_assoc. apply last_char_append.
Qed.

(** X3: for every Container that fits in memory, whatever its children
    are, the border row has exactly dims.width characters, and dims.width
    is at least 2. *)
Theorem X3_border_width (children : list Element) :
  fits (Container children) ->
  let dims := dimensions (Container children) in
  Z.of_nat (String.length (border_text dims)) = width dims /\
  2 <= width dims < modulus.
Proof.
  intros Hfit dims. destruct (inner_width _ Hfit) as [Hinner Hge].
  fold dims in Hinner, Hge. split.
  - unfold border_text. rewrite !length_append, length_repeat_char.
    cbn [String.length]. rewrite Hinner. lia.
  - split; [exact Hge|]. subst dims. rewrite (fits_dimensions _ Hfit).
    cbn [width]. apply (fits_no_wrap _ Hfit).
Qed.

Lemma X3_border_width_witness :
  Z.of_nat (String.length (border_text (dimensions (Container nested_children))))
  = width (dimensions (Container nested_children)) /\
  2 <= width (dimensions (Container nested_children)) < modulus.
Proof.
  assert (Hfit : fits (Container nested_children)) by reflexivity.
  exact (X3_border_width nested_children Hfit).
Defined.

(** X4: whatever its children are, Container::render writes two line
    breaks for its borders, one per child, and the line breaks that the
    children write themselves; its output is made of as many lines. *)
Theorem X4_box_line_breaks (children : list Element) :
  count_LF (output (Container children))
  = 2 + Z.of_nat (List.length children)
    + sum_of (map (fun c => count_LF (output c)) children) /\
  Z.of_nat (List.length (lines (output (Container children))))
  = count_LF (output (Container children)).
Proof.
  split; [apply count_LF_Container|].
  apply length_lines, output_Container_terminated.
Qed.

(** X5: the height that dimensions() returns for a tree that fits in
    memory is the number of Text and Heading elements in it, at any depth;
    the border lines of Containers are not counted. *)
Theorem X5_height_counts_leaves (e : Element) :
  fits e -> height (dimensions e) = leaves e.
Proof. apply height_leaves. Qed.

Lemma X5_height_counts_leaves_witness :
  height (dimensions (Container nested_children)) = 3 /\
  leaves (Container nested_children) = 3.
Proof.
  assert (Hfit : fits (Container nested_children)) by reflexivity.
  pose proof (X5_height_counts_leaves (Container nested_children) Hfit) as H.
  split; [rewrite H|]; reflexivity.
Defined.

(** X6: for a Container that fits in memory and whose contents hold no line
    break, render() writes height + 3 k - 1 lines, where k is the number of
    Containers of the tree, itself included: it writes height + 2 lines
    exactly when no Container is nested in it. *)
Theorem X6_lines_of_nested_boxes (children : list Element) :
  fits (Container children) ->
  one_line_contents (Container children) = true ->
  Z.of_nat (List.length (lines (output (Container children))))
  = height (dimensions (Container children))
    + 3 * containers (Container children) - 1 /\
  (box_lines (Container children) <-> containers (Container children) = 1).
Proof.
  intros Hfit Hone.
  assert (Hlines : Z.of_nat (List.length (lines (output (Container children))))
                   = height (dimensions (Container children))
                     + 3 * containers (Container children) - 1).
  { rewrite length_lines by apply output_Container_terminated.
    rewrite (height_leaves _ Hfit).
    pose proof (count_LF_tree _ Hone). lia. }
  split; [exact Hlines|]. unfold box_lines. rewrite Hlines. lia.
Qed.

Lemma X6_lines_of_nested_boxes_witness :
  Z.of_nat (List.length (lines (output (Container nested_children))))
  = height (dimensions (Container nested_children))
    + 3 * containers (Container nested_children) - 1 /\
  (box_lines (Container nested_children)
   <-> containers (Container nested_children) = 1).
Proof.
  apply (X6_lines_of_nested_boxes nested_children); reflexivity.
Defined.

(** X7: dimensions() of a Container does not depend on the order of its
    children. *)
Theorem X7_dimensions_order (children children' : list Element) :
  Permutation children children' ->
  dimensions (Container children) = dimensions (Container children').
Proof.
  intros Hperm. rewrite !dimensions_Container. unfold widths, heights.
  rewrite (max_of_Permutation _ _ (Permutation_map _ Hperm)).
  rewrite (sum_of_Permutation _ _ (Permutation_map _ Hperm)).
  reflexivity.
Qed.

Lemma X7_dimensions_order_witness :
  dimensions (Container [Container main_children; Text "ok"])
  = dimensions (Container [Text "ok"; Container main_children]).
Proof.
  apply (X7_dimensions_order [Container main_children; Text "ok"]
                             [Text "ok"; Container main_children]).
  apply perm_swap.
Defined.

(** X8: for a Container that fits in memory, the children of two
    sequences put together measure the larger of the two widths and the
    sum of the two heights. *)
Theorem X8_dimensions_append (a b : list Element) :
  fits (Container (a ++ b)) ->
  width (dimensions (Container (a ++ b)))
  = Z.max (width (dimensions (Container a))) (width (dimensions (Container b))) /\
  height (dimensions (Container (a ++ b)))
  = height (dimensions (Container a)) + height (dimensions (Container b)).
Proof.
  intros Hfit. destruct (fits_app a b Hfit) as [Ha Hb].
  rewrite (fits_dimensions _ Hfit), (fits_dimensions _ Ha),
    (fits_dimensions _ Hb).
  cbn [width height]. unfold widths, heights.
  rewrite !map_app, max_of_app, sum_of_app. split; lia.
Qed.

Lemma X8_dimensions_append_witness :
  width (dimensions (Container (main_children ++ nested_children)))
  = Z.max (width (dimensions (Container main_children)))
          (width (dimensions (Container nested_children))) /\
  height (dimensions (Container (main_children ++ nested_children)))
  = height (dimensions (Container main_children))
    + height (dimensions (Container nested_children)).
Proof.
  apply (X8_dimensions_append main_children nested_children). reflexivity.
Defined.

(** X9: a Text or a Heading whose content holds no escape character shows
    exactly its content: the visible characters that render() writes are
    the content, as many as the width that dimensions() returns. *)
Theorem X9_leaf_shows_content (e : Element) :
  is_leaf e = true -> has ESC (content e) = false ->
  visible (output e) = content e /\
  visible_width (output e) = width (dimensions e).
Proof.
  intros Hleaf Hesc.
  assert (Hvis : visible (output e) = content e).
  { destruct e as [text|text|children]; cbn [is_leaf content] in *.
    - rewrite output_Text. now apply visible_plain.
    - now apply visible_Heading.
    - discriminate Hleaf. }
  split; [exact Hvis|]. unfold visible_width. rewrite Hvis.
  now rewrite (leaf_dimensions e Hleaf).
Qed.

Lemma X9_leaf_shows_content_witness :
  visible (output (Heading "Hello world")) = "Hello world" /\
  visible_width (output (Heading "Hello world"))
  = width (dimensions (Heading "Hello world")).
Proof.
  apply (X9_leaf_shows_content (Heading "Hello world")); reflexivity.
Defined.

(** X10: in Container::render, dims.width - 2 is the maximum of the
    children's widths again, also when max_width + 2 wrapped around in
    dimensions(); so, as long as that maximum is a size_t value, the padding
    of every child is the maximum minus the child's width and is never
    negative. *)
Theorem X10_padding_from_maximum (children : list Element) (child : Element) :
  In child children -> in_range (max_of (widths children)) ->
  let dims := dimensions (Container children) in
  size_sub (width dims) 2 = max_of (widths children) /\
  padding (width dims) (width (dimensions child))
  = max_of (widths children) - width (dimensions child) /\
  0 <= max_of (widths children) - width (dimensions child).
Proof.
  intros Hin Hmax dims. subst dims. rewrite dimensions_Container.
  cbn [width].
  assert (Hinner : size_sub (size_add (max_of (widths children)) 2) 2
                   = max_of (widths children)).
  { rewrite size_sub_add_2. now apply wrap_small. }
  pose proof (width_le_max _ _ Hin) as Hle.
  pose proof (dimensions_bounds child) as [[Hc _] _].
  split; [exact Hinner|]. split; [|lia].
  unfold padding. rewrite Hinner. unfold size_sub. apply wrap_small.
  unfold in_range in *. lia.
Qed.

Lemma X10_padding_from_maximum_witness :
  size_sub (width (dimensions main_container)) 2 = max_of (widths main_children) /\
  padding (width (dimensions main_container))
          (width (dimensions (Heading "Hello world")))
  = max_of (widths main_children) - width (dimensions (Heading "Hello world")) /\
  0 <= max_of (widths main_children) - width (dimensions (Heading "Hello world")).
Proof.
  assert (Hin : In (Heading "Hello world") main_children)
    by (left; reflexivity).
  assert (Hmax : in_range (max_of (widths main_children))).
  { vm_compute. split; [intros H; discriminate H | reflexivity]. }
  exact (X10_padding_from_maximum main_children _ Hin Hmax).
Defined.

(** X11: Container::render writes its children in their order, each one
    in a row of its own: '|', what the child's render() writes, unchanged,
    the padding spaces, '|' and a line break, between the rows of the
    children before it and the rows of the children after it. *)
Theorem X11_rows_in_order (before after : list Element) (child : Element) :
  let dims := dimensions (Container (before ++ child :: after)) in
  output (Container (before ++ child :: after))
  = border_text dims ++ endl
    ++ rows dims before
    ++ ("|" ++ output child
        ++ repeat_string
             (Z.to_nat (padding (width dims) (width (dimensions child)))) " "
        ++ "|" ++ endl)
    ++ rows dims after
    ++ border_text dims ++ endl.
Proof.
  cbv zeta. rewrite output_Container. cbv zeta.
  rewrite rows_app. cbn [rows]. unfold row_text.
  now rewrite !append_assoc.
Qed.

(** X12: in a Container that fits in memory, the row of a child holds
    dims.width characters plus those that the child writes beyond its
    measured width: exactly dims.width for a Text, whatever its content,
    and 8 more, the two control sequences, for a Heading. *)
Theorem X12_row_length (children : list Element) (child : Element) :
  fits (Container children) -> In child children ->
  let dims := dimensions (Container children) in
  Z.of_nat (String.length (row_text dims child))
  = width dims
    + (Z.of_nat (String.length (output child)) - width (dimensions child)) /\
  (forall text, child = Text text ->
     Z.of_nat (String.length (row_text dims child)) = width dims) /\
  (forall text, child = Heading text ->
     Z.of_nat (String.length (row_text dims child)) = width dims + 8).
Proof.
  intros Hfit Hin dims.
  destruct (padding_exact _ _ Hfit Hin) as (Hle & _ & Hpad).
  fold dims in Hle, Hpad.
  assert (Hrow : Z.of_nat (String.length (row_text dims child))
                 = width dims
                   + (Z.of_nat (String.length (output child))
                      - width (dimensions child))).
  { unfold row_text. rewrite !length_append, length_repeat_char, Hpad.
    cbn [String.length]. lia. }
  split; [exact Hrow|]. split; intros text ->; rewrite Hrow.
  - rewrite output_Text. cbn [dimensions width]. unfold size. lia.
  - rewrite output_Heading, !length_append.
    cbn [dimensions width String.length bold_on style_reset]. unfold size. lia.
Qed.

Lemma X12_row_length_witness :
  Z.of_nat (String.length
              (row_text (dimensions main_container) (Heading "Hello world")))
  = width (dimensions main_container) + 8.
Proof.
  assert (Hfit : fits (Container main_children)) by reflexivity.
  assert (Hin : In (Heading "Hello world") main_children)
    by (left; reflexivity).
  destruct (X12_row_length main_children _ Hfit Hin) as (_ & _ & Hheading).
  exact (Hheading "Hello world" eq_refl).
Defined.
